(** * A rule-based password verifier: model and properties

    The program is a JavaScript walkthrough ([functional-sample.js]) that
    builds, in successive versions, a verifier applying an ordered array of
    rules to an input and collecting the reasons of the rules that failed.

    JavaScript functions may throw and may touch state that is not theirs, so
    a computation is modelled as a function from a store to an outcome (a
    value or a thrown value) and a new store.  Rules are arbitrary such
    functions; the store type is left abstract.  An array is a list: the
    rules a verifier was built over are the ones it keeps, and code that
    would modify that array afterwards is outside the model. *)

From Stdlib Require Import List String Ascii ZArith Bool Arith Lia Sorted.
Import ListNotations.
Local Open Scope string_scope.

(** ** Values *)

(** Data values.  Numbers are the integers (no fractions, NaN or
    infinities); strings are ASCII text, so that [length] counts what the
    [length] property counts.  An object is the list of its own data
    properties.  Function values live one level up, in [any]: they are never
    stored inside data. *)
#[local] Set Warnings "-register-all".
Inductive value : Type :=
| VUndefined
| VNull
| VBool (b : bool)
| VNum (n : Z)
| VStr (s : string)
| VObj (props : list (string * value))
| VArr (elems : list value).

(** The result of running a piece of code: normal completion with a value, or
    an abrupt completion carrying the thrown value. *)
Inductive outcome (A : Type) : Type :=
| Ret (a : A)
| Throw (err : value).
Arguments Ret {A} a.
Arguments Throw {A} err.

(** [new Error(message)] and the engine's [TypeError]. *)
Definition mkError (name message : string) : value :=
  VObj [("name", VStr name); ("message", VStr message)].
Definition Error (message : string) : value := mkError "Error" message.
Definition TypeError (message : string) : value := mkError "TypeError" message.

(** ** Computations over a store *)

Definition comp (store A : Type) : Type := store -> outcome A * store.

Definition ret {store A} (a : A) : comp store A := fun s => (Ret a, s).

Definition throw {store A} (err : value) : comp store A :=
  fun s => (Throw err, s).

Definition lift {store A} (o : outcome A) : comp store A := fun s => (o, s).

Definition bind {store A B} (m : comp store A) (k : A -> comp store B)
  : comp store B :=
  fun s =>
    match m s with
    | (Ret a, s') => k a s'
    | (Throw err, s') => (Throw err, s')
    end.

(** [try { body } catch (err) { handler }]: the handler starts in the store
    the body left behind. *)
Definition try_catch {store A} (body : comp store A)
  (handler : value -> comp store A) : comp store A :=
  fun s =>
    match body s with
    | (Ret a, s') => (Ret a, s')
    | (Throw err, s') => handler err s'
    end.

Declare Scope comp_scope.
Delimit Scope comp_scope with comp.
Notation "x <- m ;; k" := (bind m (fun x => k))
  (at level 61, m at next level, right associativity) : comp_scope.
Notation "m ;; k" := (bind m (fun _ => k))
  (at level 61, right associativity) : comp_scope.
Local Open Scope comp_scope.

(** Anything a variable can hold: a data value or a function.  A function
    takes one argument (a missing argument is [undefined]). *)
Inductive any (store : Type) : Type :=
| Val (v : value)
| Fun (f : value -> comp store value).
Arguments Val {store} v.
Arguments Fun {store} f.

(** ** Operators *)

(** ToBoolean. *)
Definition truthy (v : value) : bool :=
  match v with
  | VUndefined | VNull => false
  | VBool b => b
  | VNum n => negb (n =? 0)%Z
  | VStr s => negb (s =? "")
  | VObj _ | VArr _ => true
  end.

(** [!v] *)
Definition js_not (v : value) : value := VBool (negb (truthy v)).

Definition typeof (v : value) : string :=
  match v with
  | VUndefined => "undefined"
  | VBool _ => "boolean"
  | VNum _ => "number"
  | VStr _ => "string"
  | VNull | VObj _ | VArr _ => "object"
  end.

Definition typeof_any {store} (a : any store) : string :=
  match a with
  | Fun _ => "function"
  | Val v => typeof v
  end.

(** [s !== v] where the left operand is known to be a string: only an equal
    string is strictly equal to it. *)
Definition strict_neq_string (s : string) (v : value) : value :=
  VBool (negb match v with VStr t => s =? t | _ => false end).

Definition nullish (v : value) : bool :=
  match v with
  | VUndefined | VNull => true
  | _ => false
  end.

Fixpoint lookup (k : string) (props : list (string * value)) : value :=
  match props with
  | [] => VUndefined
  | (k', v) :: rest => if k =? k' then v else lookup k rest
  end.

(** The data property [k] of a value that is neither [null] nor
    [undefined].  It is read at [passed], [reason] and [length] only;
    inherited methods are modelled where they are called. *)
Definition member (v : value) (k : string) : value :=
  match v with
  | VObj props => lookup k props
  | VStr s => if k =? "length" then VNum (Z.of_nat (String.length s)) else VUndefined
  | VArr l => if k =? "length" then VNum (Z.of_nat (List.length l)) else VUndefined
  | _ => VUndefined
  end.

(** [v.k] *)
Definition getProp (v : value) (k : string) : outcome value :=
  match v with
  | VUndefined => Throw (TypeError ("Cannot read property '" ++ k ++ "' of undefined"))
  | VNull => Throw (TypeError ("Cannot read property '" ++ k ++ "' of null"))
  | _ => Ret (member v k)
  end.

(** [f(arg)], where [callee] is the text of the called expression, which the
    engine quotes when [f] is not a function. *)
Definition call {store} (callee : string) (f : any store) (arg : value)
  : comp store value :=
  match f with
  | Fun g => g arg
  | Val _ => throw (TypeError (callee ++ " is not a function"))
  end.

(** ToNumber, with [None] for NaN.  On strings it reads an optional sign and
    decimal digits and nothing else: text that the language also reads as a
    number (blanks around it, a fraction, an exponent, a hexadecimal
    literal) is outside what this model covers, and no property below relies
    on the conversion of a string. *)
Definition digit (c : ascii) : option Z :=
  let n := nat_of_ascii c in
  if ((48 <=? n) && (n <=? 57))%nat then Some (Z.of_nat (n - 48)) else None.

Fixpoint digits (s : string) (acc : Z) : option Z :=
  match s with
  | EmptyString => Some acc
  | String c t =>
      match digit c with
      | Some d => digits t (10 * acc + d)
      | None => None
      end
  end.

Definition stringToNumber (s : string) : option Z :=
  match s with
  | EmptyString => Some 0%Z
  | String c t =>
      if ((c =? "-")%char || (c =? "+")%char)%bool then
        match t with
        | EmptyString => None
        | _ => option_map (if (c =? "-")%char then Z.opp else fun z => z) (digits t 0)
        end
      else digits s 0
  end.

Fixpoint toNumber (v : value) : option Z :=
  match v with
  | VUndefined => None
  | VNull => Some 0%Z
  | VBool b => Some (if b then 1 else 0)%Z
  | VNum n => Some n
  | VStr s => stringToNumber s
  | VObj _ => None
  | VArr [] => Some 0%Z
  | VArr [x] =>
      match x with
      | VUndefined | VNull => Some 0%Z
      | VBool _ => None
      | _ => toNumber x
      end
  | VArr _ => None
  end.

(** [v > n] for a number literal [n]. *)
Definition gt_number (v : value) (n : Z) : value :=
  VBool match toNumber v with
        | Some m => (m >? n)%Z
        | None => false
        end.

(** Lowering of ASCII text: the letters [A] to [Z] move to [a] to [z],
    every other character stays.  (Cased letters beyond ASCII, which the
    language lowers too, are not covered.) *)
Definition lowerChar (c : ascii) : ascii :=
  let n := nat_of_ascii c in
  if ((65 <=? n) && (n <=? 90))%nat then ascii_of_nat (n + 32) else c.

Fixpoint lower (s : string) : string :=
  match s with
  | EmptyString => EmptyString
  | String c t => String (lowerChar c) (lower t)
  end.

(** [input.toLowerCase()] on data: among the values of [value] only strings
    have the method.  (An object carrying a [toLowerCase] function of its own
    is not a [value].)  The result is that of the language on ASCII text,
    where the letters [A] to [Z] are the only ones that change; the
    properties below that speak of lowered text assume ASCII text. *)
Definition toLowerCase (input : value) : outcome string :=
  match input with
  | VStr s => Ret (lower s)
  | VUndefined => Throw (TypeError "Cannot read property 'toLowerCase' of undefined")
  | VNull => Throw (TypeError "Cannot read property 'toLowerCase' of null")
  | _ => Throw (TypeError "input.toLowerCase is not a function")
  end.

(** ** Array methods

    Each visits the elements from left to right and stops at the first
    callback that throws. *)

Fixpoint array_map {store A B} (f : A -> comp store B) (l : list A)
  : comp store (list B) :=
  match l with
  | [] => ret []
  | x :: t => y <- f x ;; ys <- array_map f t ;; ret (y :: ys)
  end.

Fixpoint array_filter {store A} (p : A -> comp store value) (l : list A)
  : comp store (list A) :=
  match l with
  | [] => ret []
  | x :: t =>
      keep <- p x ;;
      kept <- array_filter p t ;;
      ret (if truthy keep then x :: kept else kept)
  end.

Fixpoint array_some {store A} (p : A -> comp store value) (l : list A)
  : comp store value :=
  match l with
  | [] => ret (VBool false)
  | x :: t => hit <- p x ;; if truthy hit then ret (VBool true) else array_some p t
  end.

(** ** The program *)

(** Lines 4-11: the standalone [verifyPassword(rules, input)]. *)
Definition verifyPassword {store} (rules : list (any store)) (input : value)
  : comp store value :=
  results <- array_map (fun rule => call "rule" rule input) rules ;;
  failures <- array_filter
    (fun result => passed <- lift (getProp result "passed") ;; ret (js_not passed))
    results ;;
  reasons <- array_map (fun failed => lift (getProp failed "reason")) failures ;;
  ret (VArr reasons).

(** The two verdict objects of line 15: [{ passed: true }] and
    [{ passed: false, reason }]. *)
Definition Passed : value := VObj [("passed", VBool true)].
Definition Failed (reason : value) : value :=
  VObj [("passed", VBool false); ("reason", reason)].

(** Line 15: the rule factory. *)
Definition verify {store} (criteria : any store) (reason : value) : any store :=
  Fun (fun input =>
    holds <- call "criteria" criteria input ;;
    if truthy holds then ret Passed else ret (Failed reason)).

(** Line 17: [input => input.length > 0]. *)
Definition nonEmpty {store} : any store :=
  Fun (fun input => len <- lift (getProp input "length") ;; ret (gt_number len 0)).

Definition exampleRule {store} : any store :=
  verify nonEmpty (VStr "You must enter a password!").

(** Lines 37 and 38 (and 97): the criteria of the two sample rules,
    [input => input && input.length > 6] and
    [input => input.toLowerCase() !== input]. *)
Definition longerThanSix {store} : any store :=
  Fun (fun input =>
    if truthy input
    then len <- lift (getProp input "length") ;; ret (gt_number len 6)
    else ret input).

Definition hasUppercase {store} : any store :=
  Fun (fun input =>
    lowered <- lift (toLowerCase input) ;; ret (strict_neq_string lowered input)).

(** Lines 25-42: the first builder, a closure over the rules, with no check
    of the rules. *)
Module Injected.

Definition buildPasswordVerifier {store} (rules : list (any store))
  : comp store (any store) :=
  ret (Fun (fun input =>
    results <- array_map (fun rule => call "rule" rule input) rules ;;
    failures <- array_filter
      (fun result => passed <- lift (getProp result "passed") ;; ret (js_not passed))
      results ;;
    reasons <- array_map (fun failed => lift (getProp failed "reason")) failures ;;
    ret (VArr reasons))).

Definition rules {store} : list (any store) :=
  [ verify longerThanSix (VStr "Minimum length is six characters");
    verify hasUppercase (VStr "Must contain an uppercase character") ].

(** Lines 40-42: [const verifyPassword = buildPasswordVerifier(rules)],
    then [verifyPassword(input)]. *)
Definition verifyPassword {store} (input : value) : comp store value :=
  verifier <- buildPasswordVerifier rules ;;
  call "verifyPassword" verifier input.

End Injected.

(** Lines 48-51: the same unchecked builder, written with arrows. *)
Module Compact.

Definition buildPasswordVerifier {store} (rules : list (any store))
  : comp store (any store) :=
  ret (Fun (fun input =>
    results <- array_map (fun rule => call "rule" rule input) rules ;;
    failures <- array_filter
      (fun result => passed <- lift (getProp result "passed") ;; ret (js_not passed))
      results ;;
    reasons <- array_map (fun failed => lift (getProp failed "reason")) failures ;;
    ret (VArr reasons))).

End Compact.

(** Lines 72-74. *)
Definition validateRules {store} (rules : list (any store)) : comp store value :=
  malformed <- array_some
    (fun rule => ret (strict_neq_string (typeof_any rule) (VStr "function")))
    rules ;;
  if truthy malformed
  then throw (Error "Rules must be a function")
  else ret VUndefined.

(** Lines 76-81: the arrow builder with the check of the rules added. *)
Module CompactChecked.

Definition buildPasswordVerifier {store} (rules : list (any store))
  : comp store (any store) :=
  validateRules rules ;;
  ret (Fun (fun input =>
    results <- array_map (fun rule => call "rule" rule input) rules ;;
    failures <- array_filter
      (fun result => passed <- lift (getProp result "passed") ;; ret (js_not passed))
      results ;;
    reasons <- array_map (fun failed => lift (getProp failed "reason")) failures ;;
    ret (VArr reasons))).

End CompactChecked.

(** Lines 85-91: the builder that checks its rules first (lines 76-81 are
    the same function written with arrows). *)
Definition buildPasswordVerifier {store} (rules : list (any store))
  : comp store (any store) :=
  validateRules rules ;;
  ret (Fun (fun input =>
    results <- array_map (fun rule => call "rule" rule input) rules ;;
    failures <- array_filter
      (fun result => passed <- lift (getProp result "passed") ;; ret (js_not passed))
      results ;;
    reasons <- array_map (fun failed => lift (getProp failed "reason")) failures ;;
    ret (VArr reasons))).

(** Lines 96-100. *)
Definition rules {store} : list (any store) :=
  [ verify hasUppercase (VStr "Must contain an uppercase character") ].

Definition passowrdVerifier {store} (input : value) : comp store value :=
  verifier <- buildPasswordVerifier rules ;;
  call "passowrdVerifier" verifier input.

(** Lines 107-113.  When [func()] completes normally the function runs off
    its end. *)
Definition errorSafe {store} (func mapper : any store) : comp store value :=
  try_catch
    (call "func" func VUndefined ;; ret VUndefined)
    (fun err => call "mapper" mapper err).

(** Lines 115-124.  [strategy] is the array the pipeline has already
    produced when [errorSafe] is entered. *)
Definition buidPasswordVerifier {store} (rules : list (any store))
  : comp store (any store) :=
  validateRules rules ;;
  ret (Fun (fun input =>
    results <- array_map (fun rule => call "rule" rule input) rules ;;
    failures <- array_filter
      (fun result => passed <- lift (getProp result "passed") ;; ret (js_not passed))
      results ;;
    reasons <- array_map (fun failed => lift (getProp failed "reason")) failures ;;
    errorSafe (Val (VArr reasons)) (Val (VArr [VStr "Verification failed"])))).

(** ** Vocabulary of the properties *)

(** The error the builder raises on a malformed rule set (line 73); the
    specification calls it the configuration error. *)
Definition ConfigurationError : value := Error "Rules must be a function".

(** The test of line 73, [typeof rule !== "function"], negated. *)
Definition callable {store} (rule : any store) : Prop :=
  typeof_any rule = "function".

(** A verdict counts as failed exactly when the filter of the pipeline keeps
    it: [!result.passed]. *)
Definition failed (verdict : value) : bool :=
  negb (truthy (member verdict "passed")).

(** [applied input rules s verdicts s']: starting in store [s], the rules are
    functions that, called on [input] one after the other, return [verdicts]
    and leave the store [s']. *)
Inductive applied {store} (input : value)
  : list (any store) -> store -> list value -> store -> Prop :=
| applied_nil (s : store) : applied input [] s [] s
| applied_cons f rest s v s1 vs s2 :
    f input s = (Ret v, s1) ->
    applied input rest s1 vs s2 ->
    applied input (Fun f :: rest) s (v :: vs) s2.

(** A computation that leaves the store as it found it, whatever its
    outcome. *)
Definition preserves {store A} (m : comp store A) : Prop :=
  forall s, snd (m s) = s.

(** A rule that never writes to the store. *)
Definition read_only {store} (rule : any store) : Prop :=
  forall input, preserves (call "rule" rule input).

(** The invariant on verdicts as the data model words it, at one application
    of a rule made by [verify] from [criteria] and the text [reason]: if the
    verdict is a failed one, its [reason] is a string and is not empty. *)
Definition failed_verdict_has_reason {store} (criteria : any store)
  (reason : string) (input : value) (s : store) : Prop :=
  forall verdict s',
    call "rule" (verify criteria (VStr reason)) input s = (Ret verdict, s') ->
    failed verdict = true ->
    exists text, member verdict "reason" = VStr text /\ text <> "".

(** What it means for a verification function [run] over [rules] to report
    the failed rules in rule order.  Whenever the rules return verdicts that
    are neither [null] nor [undefined], [run] returns an array; and whenever
    [run] returns, the rules were applied in order, and the result is the
    array of the [reason]s of the verdicts found at a strictly increasing
    list of positions, which are exactly the positions of the failed
    verdicts. *)
Definition reports_in_rule_order {store} (rules : list (any store))
  (run : value -> comp store value) : Prop :=
  forall input s,
    (forall verdicts s',
        applied input rules s verdicts s' ->
        Forall (fun v => nullish v = false) verdicts ->
        exists reasons, run input s = (Ret (VArr reasons), s'))
    /\
    (forall result s',
        run input s = (Ret result, s') ->
        exists verdicts positions,
          applied input rules s verdicts s'
          /\ StronglySorted lt positions
          /\ (forall i, In i positions <->
                        exists v, nth_error verdicts i = Some v /\ failed v = true)
          /\ result
             = VArr (map (fun i => member (nth i verdicts VUndefined) "reason")
                         positions)).

(** The letters [toLowerCase] changes: [A] to [Z]. *)
Definition isUpper (c : ascii) : bool :=
  let n := nat_of_ascii c in ((65 <=? n) && (n <=? 90))%nat.

Fixpoint containsUpper (text : string) : bool :=
  match text with
  | EmptyString => false
  | String c rest => isUpper c || containsUpper rest
  end.

(** Text made of ASCII characters only: there the [length] property is the
    number of characters and [toLowerCase] changes [A] to [Z] only. *)
Fixpoint isAscii (text : string) : bool :=
  match text with
  | EmptyString => true
  | String c rest => (nat_of_ascii c <? 128)%nat && isAscii rest
  end.


(** The word the engine uses for a value whose property cannot be read. *)
Definition nullish_name (v : value) : string :=
  match v with
  | VNull => "null"
  | _ => "undefined"
  end.

(** ** Running a sequence *)

Lemma bind_returns {store A B} (m : comp store A) (k : A -> comp store B)
  (s : store) (a : A) (s' : store) :
  m s = (Ret a, s') -> bind m k s = k a s'.
Proof. intros H. unfold bind. now rewrite H. Qed.

Lemma bind_throws {store A B} (m : comp store A) (k : A -> comp store B)
  (s : store) (err : value) (s' : store) :
  m s = (Throw err, s') -> bind m k s = (Throw err, s').
Proof. intros H. unfold bind. now rewrite H. Qed.

Lemma bind_inv {store A B} (m : comp store A) (k : A -> comp store B)
  (s : store) (b : B) (s' : store) :
  bind m k s = (Ret b, s') ->
  exists a s1, m s = (Ret a, s1) /\ k a s1 = (Ret b, s').
Proof.
  unfold bind. destruct (m s) as [[a | err] s1]; [| discriminate].
  intros H. now exists a, s1.
Qed.

(** ** Construction-time validation *)

Lemma typeof_not_function (v : value) : typeof v <> "function".
Proof. destruct v; discriminate. Qed.

Lemma callable_Fun {store} (rule : any store) :
  callable rule <-> exists f, rule = Fun f.
Proof.
  unfold callable. destruct rule as [v | f]; simpl; split.
  - intros H. now apply typeof_not_function in H.
  - intros [f H]. discriminate.
  - intros _. now exists f.
  - reflexivity.
Qed.

Lemma callable_dec {store} (rule : any store) :
  negb (typeof_any rule =? "function") = false <-> callable rule.
Proof.
  unfold callable. rewrite negb_false_iff. apply String.eqb_eq.
Qed.

Lemma array_some_typeof {store} (rules : list (any store)) (s : store) :
  array_some
    (fun rule => ret (strict_neq_string (typeof_any rule) (VStr "function")))
    rules s
  = (Ret (VBool (existsb (fun rule => negb (typeof_any rule =? "function")) rules)), s).
Proof.
  induction rules as [| rule rest IH]; simpl.
  - reflexivity.
  - unfold bind, ret at 1. simpl.
    destruct (negb (typeof_any rule =? "function")); simpl.
    + reflexivity.
    + apply IH.
Qed.

Lemma validateRules_malformed {store} (rules : list (any store)) (s : store) :
  Exists (fun rule => ~ callable rule) rules ->
  validateRules rules s = (Throw ConfigurationError, s).
Proof.
  intros H. unfold validateRules, bind. rewrite array_some_typeof. simpl.
  replace (existsb _ rules) with true; [reflexivity |].
  symmetry. apply existsb_exists. apply Exists_exists in H.
  destruct H as [rule [Hin Hbad]]. exists rule. split; [exact Hin |].
  destruct (negb (typeof_any rule =? "function")) eqn:E; [reflexivity |].
  now apply callable_dec in E.
Qed.

Lemma validateRules_wellformed {store} (rules : list (any store)) (s : store) :
  Forall callable rules ->
  validateRules rules s = (Ret VUndefined, s).
Proof.
  intros H. unfold validateRules, bind. rewrite array_some_typeof. simpl.
  replace (existsb _ rules) with false; [reflexivity |].
  symmetry. induction H as [| rule rest Hrule _ IH]; simpl.
  - reflexivity.
  - apply callable_dec in Hrule. now rewrite Hrule.
Qed.

(** On a well-formed rule set the builder returns the closure whose body is
    the pipeline of [verifyPassword], and leaves the store alone. *)
Lemma buildPasswordVerifier_wellformed {store} (rules : list (any store)) (s : store) :
  Forall callable rules ->
  buildPasswordVerifier rules s = (Ret (Fun (verifyPassword rules)), s).
Proof.
  intros H. unfold buildPasswordVerifier, bind.
  now rewrite (validateRules_wellformed rules s H).
Qed.

(** C2: a rule collection with an element that is not a function makes
    [buildPasswordVerifier] fail with the configuration error, in the store it
    was called in (no rule has run, no input is involved); a collection of
    functions only makes it return a verification function, again in the
    unchanged store. *)
Theorem builder_validates_eagerly {store} (rules : list (any store)) (s : store) :
  (Exists (fun rule => ~ callable rule) rules ->
   buildPasswordVerifier rules s = (Throw ConfigurationError, s))
  /\
  (Forall callable rules ->
   exists verifier, buildPasswordVerifier rules s = (Ret (Fun verifier), s)).
Proof.
  split; intros H.
  - unfold buildPasswordVerifier, bind.
    now rewrite (validateRules_malformed rules s H).
  - exists (verifyPassword rules). now apply buildPasswordVerifier_wellformed.
Qed.

Lemma builder_validates_eagerly_witness :
  buildPasswordVerifier [Val (VStr "Must contain an uppercase character")] tt
  = (Throw ConfigurationError, tt)
  /\ exists verifier, buildPasswordVerifier (@rules unit) tt = (Ret (Fun verifier), tt).
Proof.
  split.
  - apply (proj1 (builder_validates_eagerly _ tt)).
    constructor. unfold callable. simpl. discriminate.
  - apply (proj2 (builder_validates_eagerly _ tt)).
    repeat constructor.
Defined.

(** ** The rule factory *)

Lemma verify_call {store} (criteria : any store) (reason input : value) (s : store) :
  call "rule" (verify criteria reason) input s
  = match call "criteria" criteria input s with
    | (Ret holds, s') => (Ret (if truthy holds then Passed else Failed reason), s')
    | (Throw err, s') => (Throw err, s')
    end.
Proof.
  simpl. unfold bind.
  destruct (call "criteria" criteria input s) as [[holds | err] s']; [| reflexivity].
  now destruct (truthy holds).
Qed.

(** C6: when the predicate [criteria] answers [true] on the input, the rule
    [verify(criteria, reason)] returns a passed verdict: an object whose
    [passed] reads [true], with no reason in it; when it answers [false],
    the rule returns a failed verdict: an object whose [passed] reads [false]
    and whose [reason] reads exactly the [reason] given to [verify]. *)
Theorem verify_follows_criteria {store} (criteria : any store)
  (reason input : value) (s s' : store) (answer : bool) :
  call "criteria" criteria input s = (Ret (VBool answer), s') ->
  exists verdict,
    call "rule" (verify criteria reason) input s = (Ret verdict, s')
    /\ getProp verdict "passed" = Ret (VBool answer)
    /\ getProp verdict "reason" = Ret (if answer then VUndefined else reason)
    /\ failed verdict = negb answer.
Proof.
  intros H. rewrite verify_call, H. cbn [truthy].
  destruct answer; eexists; repeat split; reflexivity.
Qed.

Lemma verify_follows_criteria_witness :
  (exists verdict,
      call "rule" (verify nonEmpty (VStr "You must enter a password!")) (VStr "") tt
      = (Ret verdict, tt)
      /\ getProp verdict "passed" = Ret (VBool false)
      /\ getProp verdict "reason" = Ret (VStr "You must enter a password!")
      /\ failed verdict = true)
  /\ (exists verdict,
        call "rule" (verify nonEmpty (VStr "You must enter a password!"))
          (VStr "P@ssw0rd") tt
        = (Ret verdict, tt)
        /\ getProp verdict "passed" = Ret (VBool true)
        /\ getProp verdict "reason" = Ret VUndefined
        /\ failed verdict = false).
Proof.
  split.
  - apply (verify_follows_criteria nonEmpty (VStr "You must enter a password!")
             (VStr "") tt tt false).
    reflexivity.
  - apply (verify_follows_criteria nonEmpty (VStr "You must enter a password!")
             (VStr "P@ssw0rd") tt tt true).
    reflexivity.
Defined.

Lemma verify_failed_verdict {store} (criteria : any store) (reason input : value)
  (s s' : store) (verdict : value) :
  call "rule" (verify criteria reason) input s = (Ret verdict, s') ->
  failed verdict = true ->
  verdict = Failed reason.
Proof.
  rewrite verify_call.
  destruct (call "criteria" criteria input s) as [[holds | err] s1]; [| discriminate].
  destruct (truthy holds); intros H Hfailed; inversion H; subst.
  - discriminate.
  - reflexivity.
Qed.

(** C7, as stated, fails: nothing stops [verify] from being given the empty
    text, and the failed verdict then carries it. *)
Lemma failed_verdict_may_carry_empty_reason :
  ~ failed_verdict_has_reason (Fun (fun _ => ret (VBool false))) "" (VStr "Abcdef") tt.
Proof.
  intros H.
  destruct (H (Failed (VStr "")) tt eq_refl eq_refl) as [text [Hreason Hnonempty]].
  simpl in Hreason. inversion Hreason. congruence.
Qed.

(** C7, amended: when the reason text given to [verify] is not empty, every
    failed verdict of the rule carries a non-empty reason string, and that
    string is exactly the text that was given. *)
Theorem failed_verdict_carries_given_reason {store} (criteria : any store)
  (reason : string) (input : value) (s : store) :
  reason <> "" ->
  failed_verdict_has_reason criteria reason input s
  /\ (forall verdict s',
        call "rule" (verify criteria (VStr reason)) input s = (Ret verdict, s') ->
        failed verdict = true ->
        getProp verdict "reason" = Ret (VStr reason)).
Proof.
  intros Hreason. split.
  - intros verdict s' Hcall Hfailed.
    rewrite (verify_failed_verdict _ _ _ _ _ _ Hcall Hfailed).
    exists reason. split; [reflexivity | exact Hreason].
  - intros verdict s' Hcall Hfailed.
    now rewrite (verify_failed_verdict _ _ _ _ _ _ Hcall Hfailed).
Qed.

Lemma failed_verdict_carries_given_reason_witness :
  failed_verdict_has_reason (@hasUppercase unit)
    "Must contain an uppercase character" (VStr "abcdef") tt
  /\ (forall verdict s',
        call "rule"
          (verify (@hasUppercase unit) (VStr "Must contain an uppercase character"))
          (VStr "abcdef") tt
        = (Ret verdict, s') ->
        failed verdict = true ->
        getProp verdict "reason" = Ret (VStr "Must contain an uppercase character")).
Proof.
  apply (failed_verdict_carries_given_reason hasUppercase
           "Must contain an uppercase character" (VStr "abcdef") tt).
  discriminate.
Defined.

(** ** Fault containment *)

(** C9: when [func()] returns a value, [errorSafe(func, mapper)] returns
    [undefined], not that value; when [func()] throws [err], the result is
    whatever [mapper(err)] does, in the store [func] left behind. *)
Theorem errorSafe_returns_only_from_catch {store} (func mapper : any store) (s : store) :
  (forall v s', call "func" func VUndefined s = (Ret v, s') ->
                errorSafe func mapper s = (Ret VUndefined, s'))
  /\
  (forall err s', call "func" func VUndefined s = (Throw err, s') ->
                  errorSafe func mapper s = call "mapper" mapper err s').
Proof.
  unfold errorSafe, try_catch, bind.
  split; intros x s' H; rewrite H; reflexivity.
Qed.

Lemma errorSafe_returns_only_from_catch_witness :
  errorSafe (Fun (fun _ => @ret unit _ (VStr "done")))
            (Fun (fun err => ret (VArr [VStr "Verification failed"]))) tt
  = (Ret VUndefined, tt)
  /\
  errorSafe (Fun (fun _ => @throw unit _ (Error "boom")))
            (Fun (fun err => ret (VArr [VStr "Verification failed"]))) tt
  = (Ret (VArr [VStr "Verification failed"]), tt).
Proof.
  split.
  - apply (proj1 (errorSafe_returns_only_from_catch _ _ tt) (VStr "done") tt).
    reflexivity.
  - apply (proj2 (errorSafe_returns_only_from_catch
                    (Fun (fun _ => throw (Error "boom")))
                    (Fun (fun err => ret (VArr [VStr "Verification failed"]))) tt)
             (Error "boom") tt).
    reflexivity.
Defined.

(** ** The three phases of the pipeline *)

Lemma getProp_defined (v : value) (k : string) :
  nullish v = false -> getProp v k = Ret (member v k).
Proof. destruct v; simpl; intros H; try discriminate; reflexivity. Qed.

Lemma getProp_nullish (v : value) (k : string) :
  nullish v = true -> exists err, getProp v k = Throw err.
Proof. destruct v; simpl; intros H; try discriminate; eexists; reflexivity. Qed.

(** Phase one, [rules.map(rule => rule(input))], returns exactly when the
    rules can be applied one after the other. *)
Lemma rules_phase_applied {store} (input : value) (rules : list (any store)) :
  forall s verdicts s',
    array_map (fun rule => call "rule" rule input) rules s = (Ret verdicts, s') ->
    applied input rules s verdicts s'.
Proof.
  induction rules as [| rule rest IH]; simpl; intros s verdicts s' H.
  - inversion H. constructor.
  - unfold bind in H. destruct rule as [v | f]; simpl in H; [discriminate |].
    destruct (f input s) as [[v | err] s1] eqn:Hf; [| discriminate].
    destruct (array_map _ rest s1) as [[vs | err] s2] eqn:Hrest; [| discriminate].
    inversion H; subst. econstructor; [exact Hf | now apply IH].
Qed.

Lemma applied_rules_phase {store} (input : value) (rules : list (any store))
  (s : store) (verdicts : list value) (s' : store) :
  applied input rules s verdicts s' ->
  array_map (fun rule => call "rule" rule input) rules s = (Ret verdicts, s').
Proof.
  induction 1 as [s | f rest s v s1 vs s2 Hf _ IH]; simpl.
  - reflexivity.
  - unfold bind. rewrite Hf, IH. reflexivity.
Qed.

(** Phase two, [.filter(result => !result.passed)], on verdicts that can be
    read: it is the list filter by [failed], and it leaves the store alone. *)
Lemma filter_step {store} (v : value) (s : store) :
  nullish v = false ->
  (passed <- lift (getProp v "passed") ;; ret (js_not passed)) s
  = (Ret (VBool (failed v)), s).
Proof.
  intros Hv. unfold bind, lift, ret. now rewrite (getProp_defined _ _ Hv).
Qed.

Lemma filter_phase_returns {store} (verdicts : list value) (s : store) :
  Forall (fun v => nullish v = false) verdicts ->
  array_filter
    (fun result => passed <- lift (getProp result "passed") ;; ret (js_not passed))
    verdicts s
  = (Ret (filter failed verdicts), s).
Proof.
  induction 1 as [| v vs Hv _ IH]; simpl.
  - reflexivity.
  - unfold bind at 1. rewrite (filter_step v s Hv).
    unfold bind at 1. rewrite IH. reflexivity.
Qed.

(** It returns only when no verdict is [null] or [undefined]. *)
Lemma filter_phase_inv {store} (verdicts : list value) :
  forall (s : store) kept s',
    array_filter
      (fun result => passed <- lift (getProp result "passed") ;; ret (js_not passed))
      verdicts s
    = (Ret kept, s') ->
    Forall (fun v => nullish v = false) verdicts.
Proof.
  induction verdicts as [| v vs IH]; simpl; intros s kept s' H.
  - constructor.
  - unfold bind at 1 in H. destruct (nullish v) eqn:Hv.
    + destruct (getProp_nullish v "passed" Hv) as [err Herr].
      unfold bind, lift in H. rewrite Herr in H. discriminate.
    + rewrite (filter_step v s Hv) in H. unfold bind at 1 in H.
      destruct (array_filter _ vs s) as [[kept' | err] s1] eqn:Hrest; [| discriminate].
      constructor; [exact Hv | exact (IH _ _ _ Hrest)].
Qed.

(** Phase three, [.map(failed => failed.reason)]. *)
Lemma reason_phase_returns {store} (kept : list value) (s : store) :
  Forall (fun v => nullish v = false) kept ->
  array_map (fun failed => lift (getProp failed "reason")) kept s
  = (Ret (map (fun v => member v "reason") kept), s).
Proof.
  induction 1 as [| v vs Hv _ IH]; simpl.
  - reflexivity.
  - unfold bind at 1, lift at 1. rewrite (getProp_defined _ _ Hv).
    unfold bind. rewrite IH. reflexivity.
Qed.

Lemma Forall_filter_keeps {A} (P : A -> Prop) (p : A -> bool) (l : list A) :
  Forall P l -> Forall P (filter p l).
Proof.
  induction 1 as [| x xs Hx _ IH]; simpl.
  - constructor.
  - destruct (p x); [constructor |]; assumption.
Qed.

(** The whole pipeline, in both directions. *)
Lemma verifyPassword_returns {store} (rules : list (any store)) (input : value)
  (s : store) (verdicts : list value) (s' : store) :
  applied input rules s verdicts s' ->
  Forall (fun v => nullish v = false) verdicts ->
  verifyPassword rules input s
  = (Ret (VArr (map (fun v => member v "reason") (filter failed verdicts))), s').
Proof.
  intros Happlied Hread. unfold verifyPassword.
  rewrite (bind_returns _ _ _ _ _ (applied_rules_phase _ _ _ _ _ Happlied)).
  rewrite (bind_returns _ _ _ _ _ (filter_phase_returns _ s' Hread)).
  rewrite (bind_returns _ _ _ _ _
             (reason_phase_returns _ s' (Forall_filter_keeps _ failed _ Hread))).
  reflexivity.
Qed.

Lemma verifyPassword_inv {store} (rules : list (any store)) (input : value)
  (s : store) (result : value) (s' : store) :
  verifyPassword rules input s = (Ret result, s') ->
  exists verdicts,
    applied input rules s verdicts s'
    /\ Forall (fun v => nullish v = false) verdicts
    /\ result = VArr (map (fun v => member v "reason") (filter failed verdicts)).
Proof.
  intros H. unfold verifyPassword in H.
  apply bind_inv in H. destruct H as [verdicts [s1 [Hmap H]]].
  apply bind_inv in H. destruct H as [kept [s2 [Hfilter H]]].
  apply bind_inv in H. destruct H as [reasons [s3 [Hreasons H]]].
  pose proof (filter_phase_inv _ _ _ _ Hfilter) as Hread.
  rewrite (filter_phase_returns _ _ Hread) in Hfilter. inversion Hfilter; subst.
  rewrite (reason_phase_returns _ _ (Forall_filter_keeps _ failed _ Hread)) in Hreasons.
  inversion Hreasons; subst. inversion H; subst.
  exists verdicts. repeat split; [now apply rules_phase_applied | exact Hread].
Qed.

(** ** Order of the reasons *)

Lemma StronglySorted_map_S (l : list nat) :
  StronglySorted lt l -> StronglySorted lt (map S l).
Proof.
  induction 1 as [| i rest _ IH Hall]; simpl; constructor.
  - exact IH.
  - apply Forall_map. eapply Forall_impl; [| exact Hall].
    intros j Hj. simpl. lia.
Qed.

(** What a filter keeps, told by positions: the kept elements are those found
    at an increasing list of positions, the positions where the test holds. *)
Lemma filter_positions {A} (p : A -> bool) (d : A) (l : list A) :
  exists positions,
    StronglySorted lt positions
    /\ (forall i, In i positions <-> exists x, nth_error l i = Some x /\ p x = true)
    /\ filter p l = map (fun i => nth i l d) positions.
Proof.
  induction l as [| x rest [positions [Hsorted [Hin Hfilter]]]].
  - exists []. split; [constructor |]. split; [| reflexivity].
    intros i. split; [intros [] |].
    intros [x [Hx _]]. destruct i; discriminate.
  - assert (Hshift : forall i, In i (map S positions) <->
                       exists j, i = S j /\ In j positions).
    { intros i. rewrite in_map_iff. split; intros [j [H1 H2]]; exists j; auto. }
    assert (Hrest : map (fun i => nth i (x :: rest) d) (map S positions)
                    = filter p rest).
    { rewrite map_map. simpl. now rewrite Hfilter. }
    destruct (p x) eqn:Hx.
    + exists (0 :: map S positions). split; [| split].
      * constructor; [now apply StronglySorted_map_S |].
        apply Forall_map. apply Forall_forall. intros; simpl; lia.
      * intros i. simpl. rewrite Hshift. split.
        -- intros [<- | [j [-> Hj]]].
           ++ now exists x.
           ++ apply Hin in Hj. exact Hj.
        -- intros [y [Hy Hpy]]. destruct i as [| j]; [now left | right].
           exists j. split; [reflexivity |]. apply Hin. now exists y.
      * cbn [filter]. rewrite Hx. cbn [map]. rewrite Hrest. reflexivity.
    + exists (map S positions). split; [| split].
      * now apply StronglySorted_map_S.
      * intros i. rewrite Hshift. split.
        -- intros [j [-> Hj]]. apply Hin in Hj. exact Hj.
        -- intros [y [Hy Hpy]]. destruct i as [| j].
           ++ simpl in Hy. inversion Hy; subst. congruence.
           ++ exists j. split; [reflexivity |]. apply Hin. now exists y.
      * cbn [filter]. rewrite Hx. now rewrite Hrest.
Qed.

Lemma verifyPassword_reports_in_rule_order {store} (rules : list (any store)) :
  reports_in_rule_order rules (verifyPassword rules).
Proof.
  intros input s. split.
  - intros verdicts s' Happlied Hread. eexists.
    exact (verifyPassword_returns _ _ _ _ _ Happlied Hread).
  - intros result s' H.
    destruct (verifyPassword_inv _ _ _ _ _ H) as [verdicts [Happlied [_ ->]]].
    destruct (filter_positions failed VUndefined verdicts)
      as [positions [Hsorted [Hin Hfilter]]].
    exists verdicts, positions. repeat split; try assumption.
    + apply Hin.
    + apply Hin.
    + now rewrite Hfilter, map_map.
Qed.

(** C4: over a rule set of functions, the verification function returned by
    [buildPasswordVerifier], and likewise the standalone [verifyPassword],
    report the failed rules in rule order: the result is the array of the
    reasons of exactly the failed verdicts, one each, taken at increasing
    positions of the rule set; and a result is returned whenever every rule
    returns a verdict. *)
Theorem reasons_preserve_rule_order {store} (rules : list (any store)) :
  Forall callable rules ->
  (forall s, exists verifier,
      buildPasswordVerifier rules s = (Ret (Fun verifier), s)
      /\ reports_in_rule_order rules verifier)
  /\ reports_in_rule_order rules (verifyPassword rules).
Proof.
  intros Hrules. split.
  - intros s. exists (verifyPassword rules). split.
    + now apply buildPasswordVerifier_wellformed.
    + apply verifyPassword_reports_in_rule_order.
  - apply verifyPassword_reports_in_rule_order.
Qed.

Lemma reasons_preserve_rule_order_witness :
  (forall s, exists verifier,
      buildPasswordVerifier (@Injected.rules unit) s = (Ret (Fun verifier), s)
      /\ reports_in_rule_order Injected.rules verifier)
  /\ reports_in_rule_order (@Injected.rules unit) (verifyPassword Injected.rules).
Proof.
  apply (reasons_preserve_rule_order (@Injected.rules unit)).
  repeat constructor.
Defined.

(** ** When every rule passes *)

Lemma passed_not_nullish (v : value) :
  truthy (member v "passed") = true -> nullish v = false.
Proof. destruct v; simpl; intros H; try discriminate; reflexivity. Qed.

Lemma filter_failed_all_passed (verdicts : list value) :
  Forall (fun v => truthy (member v "passed") = true) verdicts ->
  filter failed verdicts = [].
Proof.
  induction 1 as [| v vs Hv _ IH]; simpl; [reflexivity |].
  unfold failed at 1. now rewrite Hv.
Qed.

(** C3: if the rules, applied in order to the input, return verdicts that all
    passed, then the verification function built over them returns the empty
    array, and so does the standalone [verifyPassword]. *)
Theorem all_rules_pass_no_reasons {store} (rules : list (any store)) (input : value)
  (s : store) (verdicts : list value) (s' : store) :
  applied input rules s verdicts s' ->
  Forall (fun v => truthy (member v "passed") = true) verdicts ->
  (forall s0, exists verifier,
      buildPasswordVerifier rules s0 = (Ret verifier, s0)
      /\ call "verifier" verifier input s = (Ret (VArr []), s'))
  /\ verifyPassword rules input s = (Ret (VArr []), s').
Proof.
  intros Happlied Hpassed.
  assert (Hrun : verifyPassword rules input s = (Ret (VArr []), s')).
  { rewrite (verifyPassword_returns _ _ _ _ _ Happlied).
    - now rewrite (filter_failed_all_passed _ Hpassed).
    - eapply Forall_impl; [| exact Hpassed]. apply passed_not_nullish. }
  split; [| exact Hrun].
  intros s0. exists (Fun (verifyPassword rules)). split; [| exact Hrun].
  apply buildPasswordVerifier_wellformed.
  clear - Happlied. induction Happlied; constructor; [reflexivity | assumption].
Qed.

Lemma all_rules_pass_no_reasons_witness :
  (forall s0, exists verifier,
      buildPasswordVerifier (@Injected.rules unit) s0 = (Ret verifier, s0)
      /\ call "verifier" verifier (VStr "Abcdefg") tt = (Ret (VArr []), tt))
  /\ verifyPassword (@Injected.rules unit) (VStr "Abcdefg") tt = (Ret (VArr []), tt).
Proof.
  apply (all_rules_pass_no_reasons (@Injected.rules unit) (VStr "Abcdefg") tt
           [Passed; Passed] tt).
  - eapply applied_cons; [reflexivity |].
    eapply applied_cons; [reflexivity |].
    apply applied_nil.
  - repeat constructor.
Defined.

(** ** The builder against the standalone function *)

Lemma applied_total {store} (input : value) (rules : list (any store)) :
  Forall callable rules ->
  (forall rule, In rule rules ->
     forall s, exists v s', call "rule" rule input s = (Ret v, s')) ->
  forall s, exists verdicts s', applied input rules s verdicts s'.
Proof.
  induction 1 as [| rule rest Hrule _ IH]; intros Hreturn s.
  - exists [], s. constructor.
  - apply callable_Fun in Hrule. destruct Hrule as [f ->].
    destruct (Hreturn (Fun f) (or_introl eq_refl) s) as [v [s1 Hf]].
    destruct (IH (fun rule Hin => Hreturn rule (or_intror Hin)) s1)
      as [vs [s2 Hrest]].
    exists (v :: vs), s2. econstructor; eassumption.
Qed.

(** C10: for rules that are functions and return on the given input, calling
    the function built by [buildPasswordVerifier] and calling the standalone
    [verifyPassword] have the same outcome in the same store: the rules are
    applied in order in both, and when their verdicts can be read (none is
    [null] or [undefined]), that outcome is one and the same array of
    reasons. *)
Theorem builder_agrees_with_standalone {store} (rules : list (any store))
  (input : value) :
  Forall callable rules ->
  (forall rule, In rule rules ->
     forall s, exists v s', call "rule" rule input s = (Ret v, s')) ->
  forall s0, exists verifier,
    buildPasswordVerifier rules s0 = (Ret verifier, s0)
    /\ forall s,
        call "verifier" verifier input s = verifyPassword rules input s
        /\ exists verdicts s',
            applied input rules s verdicts s'
            /\ (Forall (fun v => nullish v = false) verdicts ->
                exists reasons,
                  verifyPassword rules input s = (Ret (VArr reasons), s')
                  /\ call "verifier" verifier input s = (Ret (VArr reasons), s')).
Proof.
  intros Hrules Hreturn s0. exists (Fun (verifyPassword rules)). split.
  - now apply buildPasswordVerifier_wellformed.
  - intros s. split; [reflexivity |].
    destruct (applied_total input rules Hrules Hreturn s) as [verdicts [s' Happlied]].
    exists verdicts, s'. split; [exact Happlied |].
    intros Hread. eexists.
    split; exact (verifyPassword_returns _ _ _ _ _ Happlied Hread).
Qed.

Lemma builder_agrees_with_standalone_witness :
  exists verifier,
    buildPasswordVerifier Injected.rules tt = (Ret verifier, tt)
    /\ forall s,
        call "verifier" verifier (VStr "Abcdef") s
        = verifyPassword Injected.rules (VStr "Abcdef") s
        /\ exists verdicts s',
            applied (VStr "Abcdef") Injected.rules s verdicts s'
            /\ (Forall (fun v => nullish v = false) verdicts ->
                exists reasons,
                  verifyPassword Injected.rules (VStr "Abcdef") s
                  = (Ret (VArr reasons), s')
                  /\ call "verifier" verifier (VStr "Abcdef") s
                     = (Ret (VArr reasons), s')).
Proof.
  apply (fun Hcallable Hreturn =>
           builder_agrees_with_standalone (@Injected.rules unit) (VStr "Abcdef")
             Hcallable Hreturn tt).
  - repeat constructor.
  - intros rule [<- | [<- | []]] s; eexists; eexists; reflexivity.
Defined.

(** ** Repeated invocation *)

Create HintDb preserves.

Lemma preserves_ret {store A} (a : A) : preserves (@ret store A a).
Proof. intros s. reflexivity. Qed.

Lemma preserves_throw {store A} (err : value) : preserves (@throw store A err).
Proof. intros s. reflexivity. Qed.

Lemma preserves_lift {store A} (o : outcome A) : preserves (@lift store A o).
Proof. intros s. reflexivity. Qed.

Lemma preserves_bind {store A B} (m : comp store A) (k : A -> comp store B) :
  preserves m -> (forall a, preserves (k a)) -> preserves (bind m k).
Proof.
  intros Hm Hk s. unfold bind. specialize (Hm s).
  destruct (m s) as [[a | err] s1]; simpl in Hm; subst s1.
  - apply Hk.
  - reflexivity.
Qed.

#[local] Hint Resolve preserves_ret preserves_throw preserves_lift preserves_bind
  : preserves.

Lemma preserves_array_map {store A B} (f : A -> comp store B) (l : list A) :
  (forall x, In x l -> preserves (f x)) -> preserves (array_map f l).
Proof.
  induction l as [| x rest IH]; simpl; intros H.
  - auto with preserves.
  - apply preserves_bind; [apply H; now left |].
    intros y. apply preserves_bind; [apply IH; intros; apply H; now right |].
    auto with preserves.
Qed.

Lemma preserves_array_filter {store A} (p : A -> comp store value) (l : list A) :
  (forall x, In x l -> preserves (p x)) -> preserves (array_filter p l).
Proof.
  induction l as [| x rest IH]; simpl; intros H.
  - auto with preserves.
  - apply preserves_bind; [apply H; now left |].
    intros keep. apply preserves_bind; [apply IH; intros; apply H; now right |].
    auto with preserves.
Qed.

(** The pipeline adds no effect of its own: over rules that do not write to
    the store, it leaves the store as it found it, whether it returns or
    throws. *)
Lemma verifyPassword_preserves {store} (rules : list (any store)) (input : value) :
  Forall read_only rules -> preserves (verifyPassword rules input).
Proof.
  intros Hrules. unfold verifyPassword.
  apply preserves_bind.
  { apply preserves_array_map. intros rule Hin.
    rewrite Forall_forall in Hrules. exact (Hrules rule Hin input). }
  intros results. apply preserves_bind.
  { apply preserves_array_filter. auto with preserves. }
  intros failures. apply preserves_bind.
  { apply preserves_array_map. auto with preserves. }
  auto with preserves.
Qed.

(** C8: over rules that are functions and do not write to the store (rules
    as the data model has them: pure functions), two invocations in a row of
    the verification function on the same input have identical outcomes,
    and neither changes the store. *)
Theorem verifier_is_repeatable {store} (rules : list (any store)) :
  Forall callable rules ->
  Forall read_only rules ->
  forall s0, exists verifier,
    buildPasswordVerifier rules s0 = (Ret verifier, s0)
    /\ forall input s first s1 second s2,
        call "verifier" verifier input s = (first, s1) ->
        call "verifier" verifier input s1 = (second, s2) ->
        first = second /\ s1 = s /\ s2 = s.
Proof.
  intros Hcallable Hpure s0. exists (Fun (verifyPassword rules)). split.
  - now apply buildPasswordVerifier_wellformed.
  - simpl. intros input s first s1 second s2 H1 H2.
    pose proof (verifyPassword_preserves rules input Hpure s) as Hs.
    rewrite H1 in Hs. simpl in Hs. subst s1.
    rewrite H1 in H2. inversion H2; subst. auto.
Qed.

(** A rule made by [verify] writes no more than its criteria does. *)
Lemma read_only_verify {store} (criteria : any store) (reason : value) :
  (forall input, preserves (call "criteria" criteria input)) ->
  read_only (verify criteria reason).
Proof.
  intros Hcriteria input. simpl. apply preserves_bind; [apply Hcriteria |].
  intros holds. destruct (truthy holds); auto with preserves.
Qed.

Lemma hasUppercase_preserves {store} (input : value) :
  preserves (call "criteria" (@hasUppercase store) input).
Proof. simpl. auto with preserves. Qed.

Lemma verifier_is_repeatable_witness :
  exists verifier,
    buildPasswordVerifier rules 0 = (Ret verifier, 0)
    /\ forall input s first s1 second s2,
        call "verifier" verifier input s = (first, s1) ->
        call "verifier" verifier input s1 = (second, s2) ->
        first = second /\ s1 = s /\ s2 = s.
Proof.
  apply (fun Hcallable Hpure =>
           verifier_is_repeatable (@rules nat) Hcallable Hpure 0).
  - repeat constructor.
  - constructor; [| constructor].
    apply read_only_verify. apply hasUppercase_preserves.
Defined.

(** The hypothesis on the rules is needed: a rule that flips a flag in the
    store is a function, so the builder accepts it, and two invocations in a
    row then differ. *)
Remark writing_rule_is_not_repeatable :
  exists verifier,
    buildPasswordVerifier
      [Fun (fun (_ : value) (flag : bool) =>
              (Ret (if flag then Passed else Failed (VStr "Try again")), negb flag))]
      false
    = (Ret verifier, false)
    /\ call "verifier" verifier (VStr "Abcdef") false
       = (Ret (VArr [VStr "Try again"]), true)
    /\ call "verifier" verifier (VStr "Abcdef") true
       = (Ret (VArr []), false).
Proof. eexists. repeat split. Qed.

(** ** The fault-containing verifier *)

(** [errorSafe] is handed two arrays where it calls two functions: the call
    of the first throws, the handler's call of the second throws again. *)
Lemma errorSafe_on_arrays {store} (strategy fallback : value) (s : store) :
  errorSafe (Val strategy) (Val fallback) s
  = (Throw (TypeError "mapper is not a function"), s).
Proof. reflexivity. Qed.

(** Whatever the rules and the input, the function built by
    [buidPasswordVerifier] never returns: either the pipeline throws before
    [errorSafe] is reached, or [errorSafe] throws. *)
Lemma buidPasswordVerifier_never_returns {store} (rules : list (any store))
  (s0 s0' : store) (verifier : any store) :
  buidPasswordVerifier rules s0 = (Ret verifier, s0') ->
  forall input s, exists err s',
    call "verifier" verifier input s = (Throw err, s').
Proof.
  unfold buidPasswordVerifier. intros H.
  apply bind_inv in H. destruct H as [u [s1 [_ H]]].
  inversion H; subst. intros input s. simpl.
  unfold bind at 1.
  destruct (array_map _ rules s) as [[results | err] s1]; [| now exists err, s1].
  unfold bind at 1.
  destruct (array_filter _ results s1) as [[failures | err] s2]; [| now exists err, s2].
  unfold bind at 1.
  destruct (array_map _ failures s2) as [[reasons | err] s3]; [| now exists err, s3].
  rewrite errorSafe_on_arrays. now eexists; eexists.
Qed.

(** C1, at the input of the test of lines 126-140 (the uppercase rule, input
    [null]): the fault of the rule comes out of the function built by
    [buidPasswordVerifier], and out of the one built by
    [buildPasswordVerifier], which is the one the test builds; no fallback
    reason is returned. *)
Theorem rule_fault_reaches_caller {store} (s : store) :
  (verifier <- buidPasswordVerifier rules ;;
   call "passwordVerifier" verifier VNull) s
  = (Throw (TypeError "Cannot read property 'toLowerCase' of null"), s)
  /\
  (verifier <- buildPasswordVerifier rules ;;
   call "passwordVerifier" verifier VNull) s
  = (Throw (TypeError "Cannot read property 'toLowerCase' of null"), s).
Proof. split; reflexivity. Qed.

(** ** The scenarios of the walkthrough *)

(** Lines 18-19. *)
Example exampleRule_scenario {store} (s : store) :
  verifyPassword [exampleRule] (VStr "P@ssw0rd") s = (Ret (VArr []), s)
  /\ verifyPassword [exampleRule] (VStr "") s
     = (Ret (VArr [VStr "You must enter a password!"]), s).
Proof. split; reflexivity. Qed.

(** C5, as the code runs it (lines 36-42): on the empty string both reasons
    come back in order; on ["Abcdef"], six characters long, the first rule
    tests [length > 6] and fails, so its reason comes back where line 42
    announces the empty array. *)
Theorem two_rule_scenario {store} (s : store) :
  Injected.verifyPassword (VStr "") s
  = (Ret (VArr [VStr "Minimum length is six characters";
                VStr "Must contain an uppercase character"]), s)
  /\
  Injected.verifyPassword (VStr "Abcdef") s
  = (Ret (VArr [VStr "Minimum length is six characters"]), s).
Proof. split; reflexivity. Qed.

(** A seventh character is what the first rule asks for. *)
Example two_rule_scenario_seven {store} (s : store) :
  Injected.verifyPassword (VStr "Abcdefg") s = (Ret (VArr []), s).
Proof. reflexivity. Qed.

(** Lines 56-57: without the check of the rules, a string among them is found
    out only when the verifier is used. *)
Example string_rule_fails_at_use {store} (s : store) :
  (verifier <- Injected.buildPasswordVerifier
                 [Val (VStr "Must contain an uppercase character")] ;;
   call "verifyPassword" verifier (VStr "Abcdef")) s
  = (Throw (TypeError "rule is not a function"), s).
Proof. reflexivity. Qed.

(** ** Faults inside the pipeline *)

Lemma rules_phase_throws {store} (input : value) (pre post : list (any store))
  (culprit : any store) (s : store) (verdicts : list value) (s1 : store)
  (err : value) (s2 : store) :
  applied input pre s verdicts s1 ->
  call "rule" culprit input s1 = (Throw err, s2) ->
  array_map (fun rule => call "rule" rule input) (pre ++ culprit :: post) s
  = (Throw err, s2).
Proof.
  intros Hpre Hculprit.
  induction Hpre as [s | f rest s v s1 vs s3 Hf _ IH]; simpl.
  - now apply bind_throws.
  - rewrite (bind_returns _ _ _ _ _ Hf).
    now rewrite (bind_throws _ _ _ _ _ (IH Hculprit)).
Qed.

Lemma verifyPassword_first_fault {store} (pre post : list (any store))
  (culprit : any store) (input : value) (s : store) (verdicts : list value)
  (s1 : store) (err : value) (s2 : store) :
  applied input pre s verdicts s1 ->
  call "rule" culprit input s1 = (Throw err, s2) ->
  verifyPassword (pre ++ culprit :: post) input s = (Throw err, s2).
Proof.
  intros Hpre Hculprit. unfold verifyPassword. apply bind_throws.
  exact (rules_phase_throws _ _ _ _ _ _ _ _ _ Hpre Hculprit).
Qed.

(** X1: The first rule whose call throws ends the verification: the thrown value
    reaches the caller of [verifyPassword], and of the function built by
    [buildPasswordVerifier], in the store that rule left; the rules after it
    are not called. *)
Theorem first_fault_ends_verification {store} (pre post : list (any store))
  (culprit : any store) (input : value) (s : store) (verdicts : list value)
  (s1 : store) (err : value) (s2 : store) :
  applied input pre s verdicts s1 ->
  call "rule" culprit input s1 = (Throw err, s2) ->
  verifyPassword (pre ++ culprit :: post) input s = (Throw err, s2)
  /\ (Forall callable (pre ++ culprit :: post) ->
      forall s0, exists verifier,
        buildPasswordVerifier (pre ++ culprit :: post) s0 = (Ret verifier, s0)
        /\ call "verifier" verifier input s = (Throw err, s2)).
Proof.
  intros Hpre Hculprit.
  pose proof (verifyPassword_first_fault pre post culprit input s verdicts s1
                err s2 Hpre Hculprit) as Hrun.
  split; [exact Hrun |].
  intros Hrules s0. exists (Fun (verifyPassword (pre ++ culprit :: post))).
  split; [now apply buildPasswordVerifier_wellformed | exact Hrun].
Qed.

Lemma first_fault_ends_verification_witness :
  verifyPassword (@Injected.rules unit) VNull tt
  = (Throw (TypeError "Cannot read property 'toLowerCase' of null"), tt)
  /\ (Forall callable (@Injected.rules unit) ->
      forall s0, exists verifier,
        buildPasswordVerifier Injected.rules s0 = (Ret verifier, s0)
        /\ call "verifier" verifier VNull tt
           = (Throw (TypeError "Cannot read property 'toLowerCase' of null"), tt)).
Proof.
  apply (first_fault_ends_verification
           [verify longerThanSix (VStr "Minimum length is six characters")] []
           (verify hasUppercase (VStr "Must contain an uppercase character"))
           VNull tt [Failed (VStr "Minimum length is six characters")] tt).
  - eapply applied_cons; [reflexivity | apply applied_nil].
  - reflexivity.
Defined.

(** X2: The builders of lines 25-32 and 48-51 accept any array; an entry that is
    not a function is found out only when the verifier is used, as a
    [TypeError] thrown once the rules before it have run.  The checking
    builder refuses the same array when it is built. *)
Theorem unchecked_builders_fail_at_use {store} (pre post : list (any store))
  (entry input : value) (s : store) (verdicts : list value) (s1 : store) :
  applied input pre s verdicts s1 ->
  forall s0,
    (exists verifier,
        Injected.buildPasswordVerifier (pre ++ Val entry :: post) s0
        = (Ret verifier, s0)
        /\ call "verifyPassword" verifier input s
           = (Throw (TypeError "rule is not a function"), s1))
    /\ (exists verifier,
          Compact.buildPasswordVerifier (pre ++ Val entry :: post) s0
          = (Ret verifier, s0)
          /\ call "verifyPassword" verifier input s
             = (Throw (TypeError "rule is not a function"), s1))
    /\ buildPasswordVerifier (pre ++ Val entry :: post) s0
       = (Throw ConfigurationError, s0).
Proof.
  intros Hpre s0.
  assert (Hrun : verifyPassword (pre ++ Val entry :: post) input s
                 = (Throw (TypeError "rule is not a function"), s1)).
  { apply (verifyPassword_first_fault pre post (Val entry) input s verdicts s1);
      [exact Hpre | reflexivity]. }
  split; [| split].
  - exists (Fun (verifyPassword (pre ++ Val entry :: post))). now split.
  - exists (Fun (verifyPassword (pre ++ Val entry :: post))). now split.
  - unfold buildPasswordVerifier. apply bind_throws.
    apply validateRules_malformed. apply Exists_app. right. left.
    unfold callable. simpl. apply typeof_not_function.
Qed.

Lemma unchecked_builders_fail_at_use_witness :
  (exists verifier,
      Injected.buildPasswordVerifier
        [exampleRule; Val (VStr "Must contain an uppercase character")] tt
      = (Ret verifier, tt)
      /\ call "verifyPassword" verifier (VStr "Abcdef") tt
         = (Throw (TypeError "rule is not a function"), tt))
  /\ (exists verifier,
        Compact.buildPasswordVerifier
          [exampleRule; Val (VStr "Must contain an uppercase character")] tt
        = (Ret verifier, tt)
        /\ call "verifyPassword" verifier (VStr "Abcdef") tt
           = (Throw (TypeError "rule is not a function"), tt))
  /\ buildPasswordVerifier
       [exampleRule; Val (VStr "Must contain an uppercase character")] tt
     = (Throw ConfigurationError, tt).
Proof.
  apply (fun Hpre =>
           unchecked_builders_fail_at_use [exampleRule] []
             (VStr "Must contain an uppercase character") (VStr "Abcdef")
             tt [Passed] tt Hpre tt).
  eapply applied_cons; [reflexivity | apply applied_nil].
Defined.

Lemma filter_phase_throws {store} (pre post : list value) (v : value) (s : store) :
  Forall (fun x => nullish x = false) pre ->
  nullish v = true ->
  array_filter
    (fun result => passed <- lift (getProp result "passed") ;; ret (js_not passed))
    (pre ++ v :: post) s
  = (Throw (TypeError ("Cannot read property 'passed' of " ++ nullish_name v)), s).
Proof.
  intros Hpre Hv. induction Hpre as [| x xs Hx _ IH]; simpl.
  - apply bind_throws. apply bind_throws.
    destruct v; try discriminate; reflexivity.
  - rewrite (bind_returns _ _ _ _ _ (filter_step x s Hx)).
    now apply bind_throws.
Qed.

(** X3: A rule that returns [null] or [undefined] (one that forgets its
    [return], say) does not count as passed or failed: once every rule has
    run, reading [passed] off the first such verdict throws a [TypeError]. *)
Theorem unreadable_verdict_faults {store} (rules : list (any store))
  (input : value) (s : store) (pre post : list value) (v : value) (s' : store) :
  applied input rules s (pre ++ v :: post) s' ->
  Forall (fun x => nullish x = false) pre ->
  nullish v = true ->
  verifyPassword rules input s
  = (Throw (TypeError ("Cannot read property 'passed' of " ++ nullish_name v)), s').
Proof.
  intros Happlied Hpre Hv. unfold verifyPassword.
  rewrite (bind_returns _ _ _ _ _ (applied_rules_phase _ _ _ _ _ Happlied)).
  apply bind_throws. now apply filter_phase_throws.
Qed.

Lemma unreadable_verdict_faults_witness :
  verifyPassword [exampleRule; Fun (fun _ => @ret unit _ VUndefined)]
    (VStr "Abcdef") tt
  = (Throw (TypeError "Cannot read property 'passed' of undefined"), tt).
Proof.
  apply (unreadable_verdict_faults
           [exampleRule; Fun (fun _ => ret VUndefined)] (VStr "Abcdef") tt
           [Passed] [] VUndefined tt).
  - eapply applied_cons; [reflexivity |].
    eapply applied_cons; [reflexivity | apply applied_nil].
  - repeat constructor.
  - reflexivity.
Defined.

(** ** Shape of the result *)

Lemma applied_length {store} (input : value) (rules : list (any store))
  (s : store) (verdicts : list value) (s' : store) :
  applied input rules s verdicts s' -> List.length verdicts = List.length rules.
Proof. induction 1; simpl; congruence. Qed.

Lemma applied_app {store} (input : value) (rules1 rules2 : list (any store))
  (s : store) (verdicts1 : list value) (s1 : store) (verdicts2 : list value)
  (s2 : store) :
  applied input rules1 s verdicts1 s1 ->
  applied input rules2 s1 verdicts2 s2 ->
  applied input (rules1 ++ rules2) s (verdicts1 ++ verdicts2) s2.
Proof.
  intros H1 H2. induction H1; simpl.
  - exact H2.
  - econstructor; [eassumption | auto].
Qed.

(** X4: Whenever a verification returns, what it returns is an array, with one
    entry for each failed verdict and so never more entries than rules. *)
Theorem reasons_bounded_by_rules {store} (rules : list (any store))
  (input : value) (s : store) (result : value) (s' : store) :
  verifyPassword rules input s = (Ret result, s') ->
  exists reasons verdicts,
    result = VArr reasons
    /\ applied input rules s verdicts s'
    /\ List.length reasons = List.length (filter failed verdicts)
    /\ List.length reasons <= List.length rules.
Proof.
  intros H.
  destruct (verifyPassword_inv _ _ _ _ _ H) as [verdicts [Happlied [_ ->]]].
  eexists. exists verdicts. split; [reflexivity |]. split; [exact Happlied |].
  rewrite length_map. split; [reflexivity |].
  rewrite <- (applied_length _ _ _ _ _ Happlied). apply filter_length_le.
Qed.

Lemma reasons_bounded_by_rules_witness :
  exists reasons verdicts,
    VArr [VStr "Minimum length is six characters"] = VArr reasons
    /\ applied (VStr "Abcdef") (@Injected.rules unit) tt verdicts tt
    /\ List.length reasons = List.length (filter failed verdicts)
    /\ List.length reasons <= List.length (@Injected.rules unit).
Proof.
  apply (reasons_bounded_by_rules (@Injected.rules unit) (VStr "Abcdef") tt).
  reflexivity.
Defined.

(** X5: Verifying against two rule sets put end to end gives the reasons of the
    first followed by the reasons of the second (the second runs in the store
    the first left). *)
Theorem verification_of_concatenation {store} (rules1 rules2 : list (any store))
  (input : value) (s : store) (reasons1 : list value) (s1 : store)
  (reasons2 : list value) (s2 : store) :
  verifyPassword rules1 input s = (Ret (VArr reasons1), s1) ->
  verifyPassword rules2 input s1 = (Ret (VArr reasons2), s2) ->
  verifyPassword (rules1 ++ rules2) input s
  = (Ret (VArr (reasons1 ++ reasons2)), s2).
Proof.
  intros H1 H2.
  destruct (verifyPassword_inv _ _ _ _ _ H1) as [v1 [Ha1 [Hr1 E1]]].
  destruct (verifyPassword_inv _ _ _ _ _ H2) as [v2 [Ha2 [Hr2 E2]]].
  inversion E1; inversion E2; subst.
  rewrite (verifyPassword_returns _ _ _ _ _ (applied_app _ _ _ _ _ _ _ _ Ha1 Ha2)).
  - now rewrite filter_app, map_app.
  - apply Forall_app. now split.
Qed.

Lemma verification_of_concatenation_witness :
  verifyPassword
    ([verify longerThanSix (VStr "Minimum length is six characters")]
       ++ [verify hasUppercase (VStr "Must contain an uppercase character")])
    (VStr "") tt
  = (Ret (VArr ([VStr "Minimum length is six characters"]
                  ++ [VStr "Must contain an uppercase character"])), tt).
Proof.
  apply (verification_of_concatenation
           [verify longerThanSix (VStr "Minimum length is six characters")]
           [verify hasUppercase (VStr "Must contain an uppercase character")]
           (VStr "") tt _ tt _ tt); reflexivity.
Defined.

(** X6: A rule that returns a bare boolean, number, string or array where a
    verdict object is expected is taken as failed, and what is reported for
    it is [undefined]. *)
Theorem bare_verdict_reported_undefined {store} (f : value -> comp store value)
  (input : value) (s : store) (v : value) (s' : store) :
  f input s = (Ret v, s') ->
  nullish v = false ->
  (forall props, v <> VObj props) ->
  verifyPassword [Fun f] input s = (Ret (VArr [VUndefined]), s').
Proof.
  intros Hf Hv Hobj.
  rewrite (verifyPassword_returns [Fun f] input s [v] s').
  - destruct v; try discriminate; try reflexivity.
    now destruct (Hobj props).
  - econstructor; [exact Hf | constructor].
  - now repeat constructor.
Qed.

Lemma bare_verdict_reported_undefined_witness :
  verifyPassword [Fun (fun _ => @ret unit _ (VBool true))] (VStr "Abcdefg") tt
  = (Ret (VArr [VUndefined]), tt).
Proof.
  apply (bare_verdict_reported_undefined
           (fun _ => ret (VBool true)) (VStr "Abcdefg") tt (VBool true) tt).
  - reflexivity.
  - reflexivity.
  - discriminate.
Defined.

(** ** Rules made by the factory *)

Lemma applied_verify_pure {store}
  (specs : list ((value -> value) * value)) (input : value) (s : store) :
  applied input
    (map (fun spec => verify (Fun (fun x => ret (fst spec x))) (snd spec)) specs)
    s
    (map (fun spec => if truthy (fst spec input) then Passed else Failed (snd spec))
         specs)
    s.
Proof.
  induction specs as [| [criterion reason] rest IH]; simpl.
  - constructor.
  - econstructor; [| exact IH].
    unfold bind, ret. simpl. now destruct (truthy (criterion input)).
Qed.

(** X7: End to end: over rules made by [verify] from criteria that only compute
    a value from the input, the verification returns the reasons of exactly
    those rules whose criteria gave a falsy value, in rule order, and leaves
    the store alone. *)
Theorem factory_rules_report_falsy_criteria {store}
  (specs : list ((value -> value) * value)) (input : value) (s : store) :
  verifyPassword
    (map (fun spec => verify (Fun (fun x => ret (fst spec x))) (snd spec)) specs)
    input s
  = (Ret (VArr (map snd
                  (filter (fun spec => negb (truthy (fst spec input))) specs))), s).
Proof.
  rewrite (verifyPassword_returns _ _ _ _ _ (applied_verify_pure specs input s)).
  - do 3 f_equal.
    induction specs as [| [criterion reason] rest IH]; simpl; [reflexivity |].
    destruct (truthy (criterion input)); simpl; [exact IH | now rewrite IH].
  - apply Forall_map. apply Forall_forall. intros [criterion reason] _. simpl.
    now destruct (truthy (criterion input)).
Qed.

(** X8: The check of the rules looks at the rule, not at what the rule was made
    from: [verify] given criteria that is no function still returns a
    function, so the builder accepts it, and the verifier then throws on
    every input. *)
Theorem factory_does_not_check_criteria {store} (criteria reason : value) (s0 : store) :
  callable (verify (@Val store criteria) reason)
  /\ exists verifier,
      buildPasswordVerifier [verify (Val criteria) reason] s0 = (Ret verifier, s0)
      /\ forall input s,
          call "verifier" verifier input s
          = (Throw (TypeError "criteria is not a function"), s).
Proof.
  split; [reflexivity |].
  exists (Fun (verifyPassword [verify (Val criteria) reason])). split.
  - apply buildPasswordVerifier_wellformed. now repeat constructor.
  - intros input s.
    apply (verifyPassword_first_fault [] [] (verify (Val criteria) reason)
             input s [] s); [constructor | reflexivity].
Qed.

(** ** The sample rules *)

Lemma lowerChar_fixed (c : ascii) :
  (lowerChar c =? c)%char = negb (isUpper c).
Proof. destruct c as [[] [] [] [] [] [] [] []]; reflexivity. Qed.

Lemma lower_fixed (text : string) :
  (lower text =? text) = negb (containsUpper text).
Proof.
  induction text as [| c rest IH]; simpl; [reflexivity |].
  rewrite lowerChar_fixed, IH.
  destruct (isUpper c); reflexivity.
Qed.

Lemma gt_number_length (text : string) (n : nat) :
  gt_number (VNum (Z.of_nat (String.length text))) (Z.of_nat n)
  = VBool (n <? String.length text)%nat.
Proof.
  unfold gt_number. simpl. f_equal.
  destruct (Nat.ltb_spec n (String.length text)).
  - apply Z.gtb_lt. lia.
  - rewrite Z.gtb_ltb. apply Z.ltb_ge. lia.
Qed.

Lemma truthy_string (text : string) :
  truthy (VStr text) = (0 <? String.length text)%nat.
Proof. destruct text; reflexivity. Qed.

Lemma verify_returns {store} (criteria : any store) (reason input : value)
  (s : store) (holds : value) (s' : store) :
  call "criteria" criteria input s = (Ret holds, s') ->
  call "rule" (verify criteria reason) input s
  = (Ret (if truthy holds then Passed else Failed reason), s').
Proof. intros H. now rewrite verify_call, H. Qed.

Lemma hasUppercase_on_string {store} (text : string) (s : store) :
  call "criteria" hasUppercase (VStr text) s = (Ret (VBool (containsUpper text)), s).
Proof.
  simpl. unfold bind, lift, ret, strict_neq_string.
  now rewrite lower_fixed, negb_involutive.
Qed.

Lemma hasUppercase_off_string {store} (input : value) (s : store) :
  typeof input <> "string" ->
  exists message,
    call "criteria" hasUppercase input s = (Throw (TypeError message), s).
Proof.
  intros Hinput. destruct input; try (eexists; reflexivity).
  now destruct Hinput.
Qed.

Lemma longerThanSix_returns {store} (input : value) (s : store) :
  exists holds,
    call "criteria" longerThanSix input s = (Ret holds, s)
    /\ (truthy input = false -> truthy holds = false)
    /\ (forall text, input = VStr text ->
                     truthy holds = (6 <? String.length text)%nat).
Proof.
  simpl. destruct (truthy input) eqn:Htruthy.
  - assert (Hread : nullish input = false) by (now destruct input).
    unfold bind, lift, ret. rewrite (getProp_defined _ _ Hread).
    eexists. split; [reflexivity |]. split; [discriminate |].
    intros text ->. cbn [member String.eqb Ascii.eqb Bool.eqb].
    change 6%Z with (Z.of_nat 6). now rewrite gt_number_length.
  - exists input. split; [reflexivity |]. split; [auto |].
    intros text ->. rewrite Htruthy.
    rewrite truthy_string in Htruthy. apply Nat.ltb_ge in Htruthy.
    symmetry. apply Nat.ltb_ge. lia.
Qed.

Lemma nonEmpty_on_string {store} (text : string) (s : store) :
  call "criteria" nonEmpty (VStr text) s
  = (Ret (VBool (0 <? String.length text)%nat), s).
Proof.
  simpl. unfold bind, lift, ret.
  cbn [getProp member String.eqb Ascii.eqb Bool.eqb].
  change 0%Z with (Z.of_nat 0). now rewrite gt_number_length.
Qed.

Lemma uppercase_rule_callable {store} : Forall callable (@rules store).
Proof. now repeat constructor. Qed.

(** X9: The verifier of lines 96-100, built over the uppercase rule alone: on
    ASCII text it returns no reason exactly when the text has a letter from
    [A] to [Z]; on [null] and [undefined] it throws the [TypeError] of line
    100 instead of returning, and on a boolean or a number it throws a
    [TypeError] too. *)
Theorem uppercase_verifier_behaviour {store} (s : store) :
  (forall text,
      isAscii text = true ->
      passowrdVerifier (VStr text) s
      = (Ret (VArr (if containsUpper text then []
                    else [VStr "Must contain an uppercase character"])), s))
  /\ (forall input,
       nullish input = true ->
       passowrdVerifier input s
       = (Throw (TypeError ("Cannot read property 'toLowerCase' of "
                              ++ nullish_name input)), s))
  /\ (forall input,
       typeof input = "boolean" \/ typeof input = "number" ->
       passowrdVerifier input s
       = (Throw (TypeError "input.toLowerCase is not a function"), s)).
Proof.
  assert (Hbuilt : forall input,
             passowrdVerifier input s = verifyPassword rules input s).
  { intros input. unfold passowrdVerifier.
    now rewrite (bind_returns _ _ _ _ _
                   (buildPasswordVerifier_wellformed rules s uppercase_rule_callable)). }
  split; [| split].
  - intros text _. rewrite Hbuilt.
    rewrite (verifyPassword_returns rules (VStr text) s
               [if containsUpper text then Passed
                else Failed (VStr "Must contain an uppercase character")] s).
    + now destruct (containsUpper text).
    + econstructor; [| constructor].
      exact (verify_returns _ _ _ _ _ _ (hasUppercase_on_string text s)).
    + constructor; [| constructor]. now destruct (containsUpper text).
  - intros input Hinput. rewrite Hbuilt.
    apply (verifyPassword_first_fault [] [] _ input s [] s); [constructor |].
    destruct input; try discriminate; reflexivity.
  - intros input Hinput. rewrite Hbuilt.
    apply (verifyPassword_first_fault [] [] _ input s [] s); [constructor |].
    destruct input; destruct Hinput as [H | H]; try discriminate; reflexivity.
Qed.

Lemma uppercase_verifier_behaviour_witness :
  passowrdVerifier (VStr "abcdef") tt
  = (Ret (VArr [VStr "Must contain an uppercase character"]), tt)
  /\ passowrdVerifier VNull tt
     = (Throw (TypeError "Cannot read property 'toLowerCase' of null"), tt)
  /\ passowrdVerifier (VNum 42) tt
     = (Throw (TypeError "input.toLowerCase is not a function"), tt).
Proof.
  split; [| split].
  - apply (proj1 (uppercase_verifier_behaviour tt) "abcdef"). reflexivity.
  - apply (proj1 (proj2 (uppercase_verifier_behaviour tt)) VNull). reflexivity.
  - apply (proj2 (proj2 (uppercase_verifier_behaviour tt)) (VNum 42)).
    right. reflexivity.
Defined.



(** X11: The verifier of lines 36-42 on ASCII text: the first reason is there
    unless the text has more than six characters, the second unless it has a
    letter from [A] to [Z], in that order. *)
Theorem two_rule_verifier_on_strings {store} (text : string) (s : store) :
  isAscii text = true ->
  Injected.verifyPassword (VStr text) s
  = (Ret (VArr ((if (6 <? String.length text)%nat then []
                 else [VStr "Minimum length is six characters"])
                ++ (if containsUpper text then []
                    else [VStr "Must contain an uppercase character"]))), s).
Proof.
  intros _.
  change (Injected.verifyPassword (VStr text) s)
    with (verifyPassword Injected.rules (VStr text) s).
  destruct (longerThanSix_returns (VStr text) s) as [holds [Hcall [_ Hholds]]].
  specialize (Hholds text eq_refl).
  rewrite (verifyPassword_returns Injected.rules (VStr text) s
             [if truthy holds then Passed
              else Failed (VStr "Minimum length is six characters");
              if containsUpper text then Passed
              else Failed (VStr "Must contain an uppercase character")] s).
  - rewrite Hholds.
    now destruct (6 <? String.length text)%nat, (containsUpper text).
  - econstructor; [exact (verify_returns _ _ _ _ _ _ Hcall) |].
    econstructor; [| constructor].
    exact (verify_returns _ _ _ _ _ _ (hasUppercase_on_string text s)).
  - constructor; [now destruct (truthy holds) |].
    constructor; [now destruct (containsUpper text) | constructor].
Qed.

Lemma two_rule_verifier_on_strings_witness :
  Injected.verifyPassword (VStr "abcdefgh") tt
  = (Ret (VArr ([] ++ [VStr "Must contain an uppercase character"])), tt).
Proof.
  apply (two_rule_verifier_on_strings "abcdefgh" tt). reflexivity.
Defined.

(** X12: The rule of line 17: a string fails it exactly when it is empty; on
    [null] and [undefined] the rule throws, for it reads [length] off its
    input unguarded. *)
Theorem example_rule_behaviour {store} (s : store) :
  (forall text,
      verifyPassword [exampleRule] (VStr text) s
      = (Ret (VArr (if (0 <? String.length text)%nat then []
                    else [VStr "You must enter a password!"])), s))
  /\ (forall input,
       nullish input = true ->
       verifyPassword [exampleRule] input s
       = (Throw (TypeError ("Cannot read property 'length' of "
                              ++ nullish_name input)), s)).
Proof.
  split.
  - intros text.
    rewrite (verifyPassword_returns [exampleRule] (VStr text) s
               [if (0 <? String.length text)%nat then Passed
                else Failed (VStr "You must enter a password!")] s).
    + now destruct (0 <? String.length text)%nat.
    + econstructor; [| constructor].
      exact (verify_returns _ _ _ _ _ _ (nonEmpty_on_string text s)).
    + constructor; [| constructor]. now destruct (0 <? String.length text)%nat.
  - intros input Hinput.
    apply (verifyPassword_first_fault [] [] exampleRule input s [] s);
      [constructor |].
    destruct input; try discriminate; reflexivity.
Qed.

Lemma example_rule_behaviour_witness :
  verifyPassword [exampleRule] (VStr "P@ssw0rd") tt = (Ret (VArr []), tt)
  /\ verifyPassword [exampleRule] VUndefined tt
     = (Throw (TypeError "Cannot read property 'length' of undefined"), tt).
Proof.
  split.
  - apply (proj1 (example_rule_behaviour tt) "P@ssw0rd").
  - apply (proj2 (example_rule_behaviour tt) VUndefined). reflexivity.
Defined.

(** ** What [errorSafe] contains, and what the last builder makes of it *)

(** X13: Given as [mapper] a function that always returns, [errorSafe] never
    throws, whatever [func] is or does: a fault of [func] is handed to
    [mapper], whose result is the result of [errorSafe]; so is the fault of
    calling a [func] that is no function. *)
Theorem errorSafe_contains_faults {store} (func : any store)
  (mapper : value -> comp store value) :
  (forall err s, exists v s', mapper err s = (Ret v, s')) ->
  forall s,
    (exists v s', errorSafe func (Fun mapper) s = (Ret v, s'))
    /\ (forall err s1,
          call "func" func VUndefined s = (Throw err, s1) ->
          errorSafe func (Fun mapper) s = mapper err s1)
    /\ (forall data,
          errorSafe (Val data) (Fun mapper) s
          = mapper (TypeError "func is not a function") s).
Proof.
  intros Hmapper s. split; [| split].
  - unfold errorSafe, try_catch, bind.
    destruct (call "func" func VUndefined s) as [[v | err] s1].
    + now exists VUndefined, s1.
    + apply Hmapper.
  - intros err s1 Hfunc. unfold errorSafe, try_catch, bind. now rewrite Hfunc.
  - intros data. reflexivity.
Qed.

Lemma errorSafe_contains_faults_witness :
  (exists v s',
      errorSafe (Fun (fun _ => @throw unit _ (Error "boom")))
        (Fun (fun err => ret (VArr [VStr "Verification failed"; err]))) tt
      = (Ret v, s'))
  /\ (forall err s1,
        call "func" (Fun (fun _ => @throw unit _ (Error "boom"))) VUndefined tt
        = (Throw err, s1) ->
        errorSafe (Fun (fun _ => @throw unit _ (Error "boom")))
          (Fun (fun err => ret (VArr [VStr "Verification failed"; err]))) tt
        = ret (VArr [VStr "Verification failed"; err]) s1)
  /\ (forall data,
        errorSafe (Val data)
          (Fun (fun err => ret (VArr [VStr "Verification failed"; err]))) tt
        = ret (VArr [VStr "Verification failed";
                     TypeError "func is not a function"]) tt).
Proof.
  apply (fun Hmapper =>
           errorSafe_contains_faults
             (Fun (fun _ => @throw unit _ (Error "boom")))
             (fun err => ret (VArr [VStr "Verification failed"; err])) Hmapper tt).
  intros err s. now exists (VArr [VStr "Verification failed"; err]), s.
Defined.

(** X14: What the function built by [buidPasswordVerifier] does on each input, by
    what the plain pipeline does there: where the pipeline throws, the same
    value is thrown; where the pipeline returns its reasons, they are lost and
    a [TypeError] is thrown, in the store the pipeline left. *)
Theorem buidPasswordVerifier_outcome {store} (rules : list (any store)) :
  Forall callable rules ->
  forall s0, exists verifier,
    buidPasswordVerifier rules s0 = (Ret verifier, s0)
    /\ forall input s,
        call "verifier" verifier input s
        = match verifyPassword rules input s with
          | (Ret _, s') => (Throw (TypeError "mapper is not a function"), s')
          | (Throw err, s') => (Throw err, s')
          end.
Proof.
  intros Hrules s0. eexists. split.
  - unfold buidPasswordVerifier.
    now rewrite (bind_returns _ _ _ _ _ (validateRules_wellformed rules s0 Hrules)).
  - intros input s. simpl. unfold verifyPassword, bind.
    destruct (array_map _ rules s) as [[results | err] s1]; [| reflexivity].
    destruct (array_filter _ results s1) as [[failures | err] s2]; [| reflexivity].
    destruct (array_map _ failures s2) as [[reasons | err] s3]; reflexivity.
Qed.

Lemma buidPasswordVerifier_outcome_witness :
  exists verifier,
    buidPasswordVerifier (@Injected.rules unit) tt = (Ret verifier, tt)
    /\ forall input s,
        call "verifier" verifier input s
        = match verifyPassword Injected.rules input s with
          | (Ret _, s') => (Throw (TypeError "mapper is not a function"), s')
          | (Throw err, s') => (Throw err, s')
          end.
Proof.
  apply (fun Hrules => buidPasswordVerifier_outcome (@Injected.rules unit) Hrules tt).
  now repeat constructor.
Defined.

(** ** The builders side by side *)

(** X15: Over an array of functions the four builders of lines 25-32, 48-51, 76-81
    and 85-91 all return the same verification function and leave the store
    alone: the check of the rules changes nothing there. *)
Theorem builders_agree_on_functions {store} (rules : list (any store)) (s0 : store) :
  Forall callable rules ->
  buildPasswordVerifier rules s0 = (Ret (Fun (verifyPassword rules)), s0)
  /\ CompactChecked.buildPasswordVerifier rules s0 = buildPasswordVerifier rules s0
  /\ Injected.buildPasswordVerifier rules s0 = buildPasswordVerifier rules s0
  /\ Compact.buildPasswordVerifier rules s0 = buildPasswordVerifier rules s0.
Proof.
  intros Hrules.
  pose proof (buildPasswordVerifier_wellformed rules s0 Hrules) as Hbuilt.
  repeat split; try exact Hbuilt; now rewrite Hbuilt.
Qed.

Lemma builders_agree_on_functions_witness :
  buildPasswordVerifier (@Injected.rules unit) tt
  = (Ret (Fun (verifyPassword Injected.rules)), tt)
  /\ CompactChecked.buildPasswordVerifier (@Injected.rules unit) tt
     = buildPasswordVerifier Injected.rules tt
  /\ Injected.buildPasswordVerifier (@Injected.rules unit) tt
     = buildPasswordVerifier Injected.rules tt
  /\ Compact.buildPasswordVerifier (@Injected.rules unit) tt
     = buildPasswordVerifier Injected.rules tt.
Proof.
  apply (builders_agree_on_functions (@Injected.rules unit) tt).
  now repeat constructor.
Defined.
